(** * pickledROM

    A shallow embedding of [ravenframework/SupervisedLearning/pickledROM.py]:
    the placeholder that stands for a ROM until an IO step unpickles the
    real one.  Python objects are attribute stores, methods are state
    transformers that either return a value or raise, and the input
    specification is a tree of node descriptors. *)

From Stdlib Require Import Ascii String.
From stdpp Require Import gmap strings list.

#[local] Set Warnings "-register-all,-clear-no-such-hyp".
#[local] Open Scope string_scope.

(** ** Python values, objects and exceptions *)

(** The values the attributes of this class hold. *)
Inductive value : Type :=
| VNone
| VBool (b : bool)
| VStr (s : string)
| VList (l : list value)
| VDict (d : gmap string value).

(** An instance is its attribute dictionary ([self.__dict__]). *)
Abbreviation obj := (gmap string value).

Inductive exception_class : Type :=
| RuntimeError
| OtherError (name : string).

(** A raised error: its class, its message and the [printTag] of the
    object that reported it. *)
Record exception : Type := mkException {
  etype : exception_class;
  emsg : string;
  etag : option value
}.

Inductive result (A : Type) : Type :=
| Return (a : A)
| Raise (e : exception).
Arguments Return {A} a.
Arguments Raise {A} e.

(** Whether a call came back with a value. *)
Definition returned {A : Type} (r : result A) : bool :=
  match r with
  | Return _ => true
  | Raise _ => false
  end.

(** A method body: runs on [self], returns or raises, and hands back
    [self] as the body left it. *)
Definition M (A : Type) : Type := obj -> result A * obj.

#[global] Instance M_ret : MRet M := fun A a self => (Return a, self).

#[global] Instance M_bind : MBind M := fun A B f m self =>
  match m self with
  | (Return a, self') => f a self'
  | (Raise e, self') => (Raise e, self')
  end.

(** [self.name = v] *)
Definition setattr (name : string) (v : value) : M unit :=
  fun self => (Return tt, <[name := v]> self).

(** A statement [pass] as a whole body: the call returns [None]. *)
Definition pass : M value := mret VNone.

Module MessageUser.

(** Modelled from the spec: [raiseAnError] belongs to the base classes,
    which pickledROM.py does not define.  Failures "surface as a labeled
    runtime error (taxonomy: RuntimeError with fixed message text)
    through the framework's standard error-reporting channel, identified
    by the instance's identifierTag"; they are "always surfaced to the
    caller" and "no training or evaluation may mutate state". *)
Definition raiseAnError (etype : exception_class) (message : string) : M value :=
  fun self => (Raise (mkException etype message (self !! "printTag")), self).

End MessageUser.

(** ** Input types *)

Module InputTypes.

(** Modelled from the spec: the content and attribute types the schema
    table names (string, integer, float, list of strings, enumeration);
    the module that defines them is not in pickledROM.py. *)
Inductive InputType : Type :=
| StringType
| IntegerType
| FloatType
| StringListType
| EnumType (name xmlName : string) (enumList : list string).

(** Modelled from the spec: an enumeration type is its list of admitted
    words, under the two names the call gives it. *)
Definition makeEnumType (name xmlName : string) (enumList : list string) : InputType :=
  EnumType name xmlName enumList.

Definition isDigit (c : ascii) : bool :=
  (48 <=? nat_of_ascii c)%nat && (nat_of_ascii c <=? 57)%nat.

Definition dropSign (l : list ascii) : list ascii :=
  match l with
  | "+"%char :: r => r
  | "-"%char :: r => r
  | _ => l
  end.

Fixpoint spanDigits (l : list ascii) : list ascii * list ascii :=
  match l with
  | c :: r =>
      if isDigit c then let (ds, rest) := spanDigits r in (c :: ds, rest)
      else ([], l)
  | [] => ([], [])
  end.

Definition nonEmpty {A : Type} (l : list A) : bool :=
  match l with [] => false | _ :: _ => true end.

(** Modelled from the spec: "integer" content, read as an optional sign
    followed by at least one decimal digit (the conversion routine of
    the framework is not in pickledROM.py). *)
Definition isInteger (s : string) : bool :=
  let ds := dropSign (list_ascii_of_string s) in
  nonEmpty ds && forallb isDigit ds.

(** Modelled from the spec: "float content", read as a decimal literal:
    optional sign, digits with an optional fractional part, optional
    exponent.  Only the shape of the text is recognised; no number is
    computed. *)
Definition isFloat (s : string) : bool :=
  let (ip, r1) := spanDigits (dropSign (list_ascii_of_string s)) in
  let (fp, r2) :=
    match r1 with
    | "."%char :: r => spanDigits r
    | _ => ([], r1)
    end in
  (nonEmpty ip || nonEmpty fp) &&
  match r2 with
  | [] => true
  | c :: r =>
      (Ascii.eqb c "e" || Ascii.eqb c "E") &&
      (let ds := dropSign r in nonEmpty ds && forallb isDigit ds)
  end.

(** Modelled from the spec: a text fits a content or attribute type
    when it is of the declared kind; an enumeration admits exactly its
    listed words, strings and lists of strings admit any text. *)
Definition fits (t : InputType) (text : string) : bool :=
  match t with
  | StringType => true
  | IntegerType => isInteger text
  | FloatType => isFloat text
  | StringListType => true
  | EnumType _ _ enumList => existsb (String.eqb text) enumList
  end.

Fixpoint splitComma (cur : string) (l : list ascii) : list string :=
  match l with
  | [] => [String.rev cur]
  | c :: r =>
      if Ascii.eqb c "," then String.rev cur :: splitComma "" r
      else splitComma (String c cur) r
  end.

(** Modelled from the spec: a "list of strings" attribute is its text
    cut at the commas. *)
Definition stringList (text : string) : list string :=
  splitComma "" (list_ascii_of_string text).

End InputTypes.

(** ** Node descriptors and their validation *)

Module InputData.
Import InputTypes.

(** One declared attribute of a node. *)
Record Param : Type := mkParam {
  paramName : string;
  paramType : InputType;
  required : bool;
  paramDescr : string
}.

(** A node descriptor, as [parameterInputFactory] builds it and
    [addSub] and [addParam] extend it. *)
Inductive ParameterInput : Type :=
| ParameterInputClass
    (name : string)
    (contentType : option InputType)
    (description : string)
    (default : value)
    (parameters : list Param)
    (subs : list ParameterInput).

Definition name (cls : ParameterInput) : string :=
  match cls with ParameterInputClass n _ _ _ _ _ => n end.
Definition contentType (cls : ParameterInput) : option InputType :=
  match cls with ParameterInputClass _ c _ _ _ _ => c end.
Definition description (cls : ParameterInput) : string :=
  match cls with ParameterInputClass _ _ d _ _ _ => d end.
Definition default (cls : ParameterInput) : value :=
  match cls with ParameterInputClass _ _ _ d _ _ => d end.
Definition parameters (cls : ParameterInput) : list Param :=
  match cls with ParameterInputClass _ _ _ _ p _ => p end.
Definition subs (cls : ParameterInput) : list ParameterInput :=
  match cls with ParameterInputClass _ _ _ _ _ s => s end.

(** Modelled from the spec: the schema builder is not in
    pickledROM.py.  It builds "a tree of named, typed configuration-node
    descriptors with default values and attribute constraints": the
    factory makes a node with no attribute and no sub-node yet. *)
Definition parameterInputFactory (name : string) (contentType : InputType)
    (descr : string) (default : value) : ParameterInput :=
  ParameterInputClass name (Some contentType) descr default [] [].

(** [cls.description = text] *)
Definition setDescription (cls : ParameterInput) (text : string) : ParameterInput :=
  match cls with
  | ParameterInputClass n c _ d p s => ParameterInputClass n c text d p s
  end.

(** Modelled from the spec: [addSub] declares one more sub-node, after
    the ones already declared. *)
Definition addSub (cls sub : ParameterInput) : ParameterInput :=
  match cls with
  | ParameterInputClass n c t d p s => ParameterInputClass n c t d p (s ++ [sub])
  end.

(** Modelled from the spec: [addParam] declares one more attribute;
    left out, [required] is false (the attribute is optional) and the
    description is empty. *)
Definition addParam (cls : ParameterInput) (name : string) (param_type : InputType)
    (required : bool) (descr : string) : ParameterInput :=
  match cls with
  | ParameterInputClass n c t d p s =>
      ParameterInputClass n c t d (p ++ [mkParam name param_type required descr]) s
  end.

(** The default a factory call of pickledROM.py passes is either
    [None] or the marker ['no-default']; the marker is what the spec
    calls "no implicit default". *)
Definition noDefault (v : value) : bool :=
  match v with
  | VStr s => String.eqb s "no-default"
  | _ => false
  end.

(** A node of a configuration file. *)
Inductive xml : Type :=
| Element (tag : string) (attrib : list (string * string)) (text : string)
    (children : list xml).

Definition tag (node : xml) : string :=
  match node with Element t _ _ _ => t end.

(** The pieces of the acceptance check below. *)

Definition getAttrib (attrib : list (string * string)) (key : string) : option string :=
  snd <$> find (fun kv => String.eqb (fst kv) key) attrib.

Definition findSub (subs : list ParameterInput) (tag : string) : option ParameterInput :=
  find (fun sub => String.eqb (name sub) tag) subs.

Definition contentFits (contentType : option InputType) (text : string) : bool :=
  match contentType with
  | Some t => fits t text
  | None => true
  end.

Definition paramFits (attrib : list (string * string)) (p : Param) : bool :=
  match getAttrib attrib (paramName p) with
  | Some v => fits (paramType p) v
  | None => negb (required p)
  end.

Definition declaredParam (parameters : list Param) (kv : string * string) : bool :=
  existsb (fun p => String.eqb (paramName p) (fst kv)) parameters.

Definition subPresent (children : list xml) (sub : ParameterInput) : bool :=
  implb (noDefault (default sub))
        (existsb (fun c => String.eqb (tag c) (name sub)) children).

(** Modelled from the spec: the validation engine is not in
    pickledROM.py.  A node is accepted by a descriptor when it bears the
    descriptor's name, its text is of the declared content type, every
    required attribute is there and every attribute given is declared
    and of its declared type, every sub-node that has "no implicit
    default" is there ("required if Multicycle present"), and every
    child is a declared sub-node accepted by its own descriptor ("names
    must match exactly for configuration files to validate").  A
    declared sub-node may occur any number of times ("zero-or-more"). *)
Fixpoint parseNode (spec : ParameterInput) (node : xml) {struct node} : bool :=
  match node with
  | Element t attrib text children =>
      String.eqb t (name spec)
      && contentFits (contentType spec) text
      && forallb (paramFits attrib) (parameters spec)
      && forallb (declaredParam (parameters spec)) attrib
      && forallb (subPresent children) (subs spec)
      && forallb (fun c =>
                    match findSub (subs spec) (tag c) with
                    | Some sub => parseNode sub c
                    | None => false
                    end) children
  end.

End InputData.

(** ** The class *)

Module pickledROM.
Import MessageUser.

Module Descr.
Definition description : string := "It is not uncommon for a reduced-order model (ROM) to be created and trained in one RAVEN run, then
    serialized to file (\emph{pickled}), then loaded into another RAVEN run to be used as a model.  When this is
    the case, a \xmlNode{ROM} with subtype \xmlString{pickledROM} is used to hold the place of the ROM that will
    be loaded from file.  The notation for this ROM is much less than a typical ROM; it usually only requires a name and
    its subtype.
    \\
    Note that when loading ROMs from file, RAVEN will not perform any checks on the expected inputs or outputs of
    a ROM; it is expected that a user know at least the I/O of a ROM before trying to use it as a model.
    However, RAVEN does require that pickled ROMs be trained before pickling in the first place.
    \\
    Initially, a pickledROM is not usable.  It cannot be trained or sampled; attempting to do so will raise an
    error.  An \xmlNode{IOStep} is used to load the ROM from file, at which point the ROM will have all the same
    characteristics as when it was pickled in a previous RAVEN run.
".
Definition seed : string := "provides seed for VARMA and ARMA sampling.
                                                  Must be provided before training. If no seed is assigned,
                                                  then a random number will be used.".
Definition Multicycle : string := "indicates that each sample of the ARMA should yield
                                                   multiple sequential samples. For example, if an ARMA model is trained to produce a year's worth of data,
                                                   enabling \xmlNode{Multicycle} causes it to produce several successive years of data. Multicycle sampling
                                                   is independent of ROM training, and only changes how samples of the ARMA are created.
                                                   \nb The output of a multicycle ARMA must be stored in a \xmlNode{DataSet}, as the targets will depend
                                                   on both the \xmlNode{pivotParameter} as well as the cycle, \xmlString{Cycle}. The cycle is a second
                                                   \xmlNode{Index} that all targets should depend on, with variable name \xmlString{Cycle}.".
Definition cycles : string := "the number of cycles the ARMA should produce
                                                   each time it yields a sample.".
Definition growth : string := "if provided then the histories produced by
                                                   the ARMA will be increased by the growth factor for successive cycles. This node can be added
                                                   multiple times with different settings for different targets.
                                                   The text of this node is the growth factor in percentage. Some examples are in
                                                   Table~\ref{tab:arma multicycle growth}, where \emph{Growth factor} is the value used in the RAVEN
                                                   input and \emph{Scaling factor} is the value by which the history will be multiplied.
                                                   \begin{table}[h!]
                                                     \centering
                                                     \begin{tabular}{r c l}
                                                       Growth factor & Scaling factor & Description \\ \hline
                                                       50 & 1.5 & growing by 50\% each cycle \\
                                                       -50 & 0.5 & shrinking by 50\% each cycle \\
                                                       150 & 2.5 & growing by 150\% each cycle \\
                                                     \end{tabular}
                                                     \caption{ARMA Growth Factor Examples}
                                                     \label{tab:arma multicycle growth}
                                                   \end{table}".
Definition targets : string := "lists the targets
                    in this ARMA that this growth factor should apply to.".
Definition mode : string := "either \xmlString{linear} or
                    \xmlString{exponential}, determines the manner in which the growth factor is applied.
                    If \xmlString{linear}, then the scaling factor is $(1+y\cdot g/100)$;
                    if \xmlString{exponential}, then the scaling factor is $(1+g/100)^y$;
                    where $y$ is the cycle after the first and $g$ is the provided scaling factor.".
Definition clusterEvalMode : string := "changes the structure of the samples for Clustered
                                                 Segmented ROMs. These are identical to the options for \xmlNode{evalMode}
                                                 node under \xmlNode{Segmented} ".
Definition maxCycles : string := "maximum number of cycles to run (default no limit)".
End Descr.

Definition notLoaded : string :=
  "PickledROM has not been loaded from file yet!  An IO step is required to perform this action.".

Section Class.

(** What [super().getInputSpecification()] returns: the specification
    of the base class, which pickledROM.py does not define. *)
Variable superInputSpecification : InputData.ParameterInput.

(** Modelled from the spec: [super().__init__()] is the "default
    base-class construction", which takes no input and always succeeds;
    which attributes it sets is left open. *)
Variable superInit : obj -> obj.

Definition getInputSpecification : InputData.ParameterInput :=
  let specs := superInputSpecification in
  let specs := InputData.setDescription specs Descr.description in
  let specs := InputData.addSub specs
    (InputData.parameterInputFactory "seed" InputTypes.IntegerType Descr.seed VNone) in
  let multicycle :=
    InputData.parameterInputFactory "Multicycle" InputTypes.StringType Descr.Multicycle VNone in
  let multicycle := InputData.addSub multicycle
    (InputData.parameterInputFactory "cycles" InputTypes.IntegerType Descr.cycles
       (VStr "no-default")) in
  let growth :=
    InputData.parameterInputFactory "growth" InputTypes.FloatType Descr.growth VNone in
  let growth := InputData.addParam growth "targets" InputTypes.StringListType true Descr.targets in
  let growth := InputData.addParam growth "start_index" InputTypes.IntegerType false "" in
  let growth := InputData.addParam growth "end_index" InputTypes.IntegerType false "" in
  let growthEnumType :=
    InputTypes.makeEnumType "growth" "armaGrowthType" ["exponential"; "linear"] in
  let growth := InputData.addParam growth "mode" growthEnumType true Descr.mode in
  let multicycle := InputData.addSub multicycle growth in
  let specs := InputData.addSub specs multicycle in
  let clusterEvalModeEnum :=
    InputTypes.makeEnumType "clusterEvalModeEnum" "clusterEvalModeType"
      ["clustered"; "truncated"; "full"] in
  let specs := InputData.addSub specs
    (InputData.parameterInputFactory "clusterEvalMode" clusterEvalModeEnum
       Descr.clusterEvalMode VNone) in
  let specs := InputData.addSub specs
    (InputData.parameterInputFactory "maxCycles" InputTypes.IntegerType Descr.maxCycles VNone) in
  specs.

Definition __init__ : M unit :=
  (fun self => (Return tt, superInit self)) ;;
  setattr "printTag" (VStr "pickledROM") ;;
  setattr "_dynamicHandling" (VBool false) ;;
  setattr "initOptionDict" (VDict ∅) ;;
  setattr "features" (VList [VStr "PlaceHolder"]) ;;
  setattr "target" (VStr "PlaceHolder").

(** [pickledROM()]: a new object, then [__init__] on it. *)
Definition new : result unit * obj := __init__ ∅.

(** The instance a construction leaves: freshly made, not restored. *)
Definition fresh : obj := snd new.

End Class.

(** The arguments of the methods are arbitrary Python objects; none of
    the bodies looks at them. *)

Definition __confidenceLocal__ {A : Type} (featureVals : A) : M value := pass.

Definition __resetLocal__ : M value := pass.

Definition __returnCurrentSettingLocal__ : M value := pass.

Definition __returnInitialParametersLocal__ : M value :=
  let params := VDict ∅ in
  mret params.

Definition __evaluateLocal__ {A : Type} (featureVals : A) : M value :=
  _ ← raiseAnError RuntimeError notLoaded;
  mret VNone.

Definition __trainLocal__ {A B : Type} (featureVals : A) (targetVals : B) : M value :=
  _ ← raiseAnError RuntimeError notLoaded;
  mret VNone.

End pickledROM.

(** ** Callers *)

(** The sub-nodes [getInputSpecification] declares itself, read off the
    specification it builds over a base that declares none. *)
Definition added : list InputData.ParameterInput :=
  InputData.subs
    (pickledROM.getInputSpecification (InputData.ParameterInputClass "" None "" VNone [] [])).

(** One call of a method of the placeholder, with its arguments. *)
Inductive call : Type :=
| Confidence (featureVals : value)
| ResetROM
| CurrentSetting
| InitialParameters
| Evaluate (featureVals : value)
| Train (featureVals targetVals : value).

Definition invoke (c : call) : M value :=
  match c with
  | Confidence featureVals => pickledROM.__confidenceLocal__ featureVals
  | ResetROM => pickledROM.__resetLocal__
  | CurrentSetting => pickledROM.__returnCurrentSettingLocal__
  | InitialParameters => pickledROM.__returnInitialParametersLocal__
  | Evaluate featureVals => pickledROM.__evaluateLocal__ featureVals
  | Train featureVals targetVals => pickledROM.__trainLocal__ featureVals targetVals
  end.

(** Calls made one after the other by a caller that catches nothing:
    the first error ends the sequence. *)
Fixpoint script (cs : list call) : M (list value) :=
  match cs with
  | [] => mret []
  | c :: cs' =>
      v ← invoke c;
      vs ← script cs';
      mret (v :: vs)
  end.

(** Calls made one after the other by a caller that catches every
    error and goes on. *)
Fixpoint attempts (cs : list call) (self : obj) : list (result value) * obj :=
  match cs with
  | [] => ([], self)
  | c :: cs' =>
      let (r, self') := invoke c self in
      let (rs, self'') := attempts cs' self' in
      (r :: rs, self'')
  end.

(** What a call that comes back hands to its caller: the empty
    dictionary for the initial parameters, [None] for a body that is
    [pass]. *)
Definition answer (c : call) : value :=
  match c with
  | InitialParameters => VDict ∅
  | _ => VNone
  end.

(** The calls that go through [raiseAnError]. *)
Definition refused (c : call) : bool :=
  match c with
  | Evaluate _ | Train _ _ => true
  | _ => false
  end.

Import pickledROM.

(** Reads an attribute off a store given as a pile of assignments. *)
Ltac read_attr :=
  repeat (rewrite lookup_insert_ne; [| discriminate]); apply lookup_insert_eq.

(** ** Construction *)

(** The attributes [__init__] assigns, in the order it assigns them,
    on top of what the base-class part left. *)
Lemma init_store (superInit : obj -> obj) (self : obj) :
  __init__ superInit self =
  (Return tt,
   <["target" := VStr "PlaceHolder"]>
     (<["features" := VList [VStr "PlaceHolder"]]>
        (<["initOptionDict" := VDict ∅]>
           (<["_dynamicHandling" := VBool false]>
              (<["printTag" := VStr "pickledROM"]> (superInit self)))))).
Proof. reflexivity. Qed.

Lemma init_printTag (superInit : obj -> obj) (self : obj) :
  snd (__init__ superInit self) !! "printTag" = Some (VStr "pickledROM").
Proof. rewrite init_store. cbn [snd]. read_attr. Qed.

(** C6: construction always returns, and leaves the placeholder state:
    [initOptionDict] is the empty mapping, [features] is
    [['PlaceHolder']], [target] is ['PlaceHolder'] and [_dynamicHandling]
    is false, whatever the base-class part set. *)
Theorem init_placeholder_state (superInit : obj -> obj) :
  new superInit = (Return tt, fresh superInit)
  /\ fresh superInit !! "printTag" = Some (VStr "pickledROM")
  /\ fresh superInit !! "_dynamicHandling" = Some (VBool false)
  /\ fresh superInit !! "initOptionDict" = Some (VDict ∅)
  /\ fresh superInit !! "features" = Some (VList [VStr "PlaceHolder"])
  /\ fresh superInit !! "target" = Some (VStr "PlaceHolder").
Proof.
  unfold fresh, new. rewrite init_store. cbn [snd].
  split; [reflexivity |]. repeat split; read_attr.
Qed.

(** ** The methods of the placeholder *)

Lemma fresh_printTag (superInit : obj -> obj) :
  fresh superInit !! "printTag" = Some (VStr "pickledROM").
Proof. exact (init_printTag superInit ∅). Qed.

(** What a call of [raiseAnError] followed by nothing else does. *)
Lemma raise_then_return (cls : exception_class) (msg : string) (self : obj) :
  (MessageUser.raiseAnError cls msg ≫= (fun _ => mret VNone)) self =
  (Raise (mkException cls msg (self !! "printTag")), self).
Proof. reflexivity. Qed.

Lemma evaluate_raises {A : Type} (featureVals : A) (self : obj) :
  __evaluateLocal__ featureVals self =
  (Raise (mkException RuntimeError notLoaded (self !! "printTag")), self).
Proof. apply raise_then_return. Qed.

Lemma train_raises {A B : Type} (featureVals : A) (targetVals : B) (self : obj) :
  __trainLocal__ featureVals targetVals self =
  (Raise (mkException RuntimeError notLoaded (self !! "printTag")), self).
Proof. apply raise_then_return. Qed.

(** C1, as the code has it: on a freshly constructed instance, evaluate
    raises a [RuntimeError] for every input and returns nothing; the
    message it carries has two spaces after "yet!". *)
Theorem evaluate_fresh_not_loaded (superInit : obj -> obj) (A : Type) (featureVals : A) :
  fst (__evaluateLocal__ featureVals (fresh superInit)) =
    Raise (mkException RuntimeError
             "PickledROM has not been loaded from file yet!  An IO step is required to perform this action."
             (Some (VStr "pickledROM")))
  /\ returned (fst (__evaluateLocal__ featureVals (fresh superInit))) = false.
Proof.
  rewrite evaluate_raises, fresh_printTag. split; reflexivity.
Qed.

(** C1, as it is worded: the message with a single space after "yet!" is
    not the one evaluate raises. *)
Lemma evaluate_single_space_message_differs :
  ~ (exists e,
        fst (__evaluateLocal__ tt (fresh (fun self => self))) = Raise e
        /\ etype e = RuntimeError
        /\ emsg e =
           "PickledROM has not been loaded from file yet! An IO step is required to perform this action.").
Proof.
  intros (e & Hraise & _ & Hmsg).
  rewrite evaluate_raises in Hraise. cbn [fst] in Hraise.
  injection Hraise as <-. cbn [emsg] in Hmsg. discriminate Hmsg.
Qed.

(** C2: on a freshly constructed instance, train raises for every pair
    of inputs a [RuntimeError] with the message
    "PickledROM has not been loaded from file yet!  An IO step is required to perform this action.",
    the very error evaluate raises. *)
Theorem train_fresh_not_loaded (superInit : obj -> obj) (A B : Type)
    (featureVals : A) (targetVals : B) :
  fst (__trainLocal__ featureVals targetVals (fresh superInit)) =
    Raise (mkException RuntimeError
             "PickledROM has not been loaded from file yet!  An IO step is required to perform this action."
             (Some (VStr "pickledROM")))
  /\ fst (__trainLocal__ featureVals targetVals (fresh superInit)) =
     fst (__evaluateLocal__ featureVals (fresh superInit)).
Proof.
  rewrite train_raises, evaluate_raises, fresh_printTag. split; reflexivity.
Qed.

(** C3: a train or an evaluate that raises leaves the instance as it
    was: the attribute store after the call is the one before it, so
    [printTag], [_dynamicHandling], [initOptionDict], [features] and
    [target] read the same. *)
Theorem failed_call_keeps_state (A B : Type) (featureVals : A) (targetVals : B)
    (self : obj) (attribute : string) :
  returned (fst (__evaluateLocal__ featureVals self)) = false
  /\ returned (fst (__trainLocal__ featureVals targetVals self)) = false
  /\ snd (__evaluateLocal__ featureVals self) = self
  /\ snd (__trainLocal__ featureVals targetVals self) = self
  /\ snd (__evaluateLocal__ featureVals self) !! attribute = self !! attribute
  /\ snd (__trainLocal__ featureVals targetVals self) !! attribute = self !! attribute.
Proof.
  rewrite evaluate_raises, train_raises. cbn [fst snd returned]. tauto.
Qed.

(** C4: [__returnInitialParametersLocal__] returns the empty mapping, on
    a freshly constructed instance as on any other, and leaves the
    instance alone. *)
Theorem initial_parameters_empty (superInit : obj -> obj) (self : obj) :
  __returnInitialParametersLocal__ (fresh superInit) = (Return (VDict ∅), fresh superInit)
  /\ __returnInitialParametersLocal__ self = (Return (VDict ∅), self).
Proof. split; reflexivity. Qed.

(** C5: on a freshly constructed instance [__resetLocal__],
    [__confidenceLocal__] (for any input) and
    [__returnCurrentSettingLocal__] do not raise, return [None], and
    leave the instance as it was. *)
Theorem noop_methods (superInit : obj -> obj) (A : Type) (featureVals : A) :
  __resetLocal__ (fresh superInit) = (Return VNone, fresh superInit)
  /\ __confidenceLocal__ featureVals (fresh superInit) = (Return VNone, fresh superInit)
  /\ __returnCurrentSettingLocal__ (fresh superInit) = (Return VNone, fresh superInit).
Proof. repeat split. Qed.

(** C10: train and evaluate do not look at their arguments: whatever is
    passed, empty arrays included, the outcome is the same not-loaded
    [RuntimeError]. *)
Theorem train_evaluate_ignore_arguments (A B A' B' : Type)
    (featureVals : A) (targetVals : B) (featureVals' : A') (targetVals' : B')
    (self : obj) :
  __trainLocal__ featureVals targetVals self = __trainLocal__ featureVals' targetVals' self
  /\ __evaluateLocal__ featureVals self = __evaluateLocal__ featureVals' self
  /\ __trainLocal__ (VList []) (VList []) self =
     (Raise (mkException RuntimeError
               "PickledROM has not been loaded from file yet!  An IO step is required to perform this action."
               (self !! "printTag")), self)
  /\ __evaluateLocal__ (VList []) self =
     (Raise (mkException RuntimeError
               "PickledROM has not been loaded from file yet!  An IO step is required to perform this action."
               (self !! "printTag")), self)
  /\ __trainLocal__ featureVals targetVals self =
     (Raise (mkException RuntimeError
               "PickledROM has not been loaded from file yet!  An IO step is required to perform this action."
               (self !! "printTag")), self)
  /\ __evaluateLocal__ featureVals self =
     (Raise (mkException RuntimeError
               "PickledROM has not been loaded from file yet!  An IO step is required to perform this action."
               (self !! "printTag")), self).
Proof.
  repeat split;
    first [ apply train_raises | apply evaluate_raises
          | rewrite !train_raises; reflexivity
          | rewrite !evaluate_raises; reflexivity ].
Qed.

(** ** The validation of nodes *)

Import InputTypes InputData.

Example integer_texts :
  map isInteger ["5"; "-12"; "+7"; ""; "-"; "5.0"; "five"] =
  [true; true; true; false; false; false; false].
Proof. reflexivity. Qed.

Example float_texts :
  map isFloat ["50"; "-50"; "1.5"; ".5"; "2."; "1e3"; "1.5E-3"; ""; "."; "e3"; "fifty"; "1e"] =
  [true; true; true; true; true; true; true; false; false; false; false; false].
Proof. reflexivity. Qed.

Example string_list_texts :
  stringList "T1,T2" = ["T1"; "T2"] /\ stringList "T1" = ["T1"].
Proof. split; reflexivity. Qed.

Lemma parseNode_unfold (spec : ParameterInput) (t : string)
    (attrib : list (string * string)) (text : string) (children : list xml) :
  parseNode spec (Element t attrib text children) =
  String.eqb t (name spec)
  && contentFits (contentType spec) text
  && forallb (paramFits attrib) (parameters spec)
  && forallb (declaredParam (parameters spec)) attrib
  && forallb (subPresent children) (subs spec)
  && forallb (fun c =>
                match findSub (subs spec) (tag c) with
                | Some sub => parseNode sub c
                | None => false
                end) children.
Proof. reflexivity. Qed.

Lemma forallb_false_at {A : Type} (f : A -> bool) (l : list A) (x : A) :
  x ∈ l -> f x = false -> forallb f l = false.
Proof.
  intros Hin Hx. induction Hin as [y l | y z l _ IH]; cbn.
  - now rewrite Hx.
  - rewrite (IH Hx). apply andb_false_r.
Qed.

(** A node that lacks a sub-node declared without default is rejected. *)
Lemma parseNode_missing_sub (spec sub : ParameterInput) (t : string)
    (attrib : list (string * string)) (text : string) (children : list xml) :
  sub ∈ subs spec ->
  noDefault (default sub) = true ->
  existsb (fun c => String.eqb (tag c) (name sub)) children = false ->
  parseNode spec (Element t attrib text children) = false.
Proof.
  intros Hin Hdef Habs. rewrite parseNode_unfold.
  rewrite (forallb_false_at (subPresent children) (subs spec) sub Hin).
  - now rewrite andb_false_r.
  - unfold subPresent. now rewrite Hdef, Habs.
Qed.

(** A node that lacks a required attribute is rejected. *)
Lemma parseNode_missing_param (spec : ParameterInput) (p : Param) (t : string)
    (attrib : list (string * string)) (text : string) (children : list xml) :
  p ∈ parameters spec ->
  required p = true ->
  getAttrib attrib (paramName p) = None ->
  parseNode spec (Element t attrib text children) = false.
Proof.
  intros Hin Hreq Habs. rewrite parseNode_unfold.
  rewrite (forallb_false_at (paramFits attrib) (parameters spec) p Hin).
  - now rewrite !andb_false_r.
  - unfold paramFits. now rewrite Habs, Hreq.
Qed.

(** A node with a child its descriptor rejects is rejected. *)
Lemma parseNode_child_rejected (spec sub : ParameterInput) (c : xml) (t : string)
    (attrib : list (string * string)) (text : string) (children : list xml) :
  c ∈ children ->
  findSub (subs spec) (tag c) = Some sub ->
  parseNode sub c = false ->
  parseNode spec (Element t attrib text children) = false.
Proof.
  intros Hin Hsub Hrej. rewrite parseNode_unfold.
  rewrite (forallb_false_at _ children c Hin).
  - apply andb_false_r.
  - now rewrite Hsub.
Qed.

Lemma findSub_app_None (l1 l2 : list ParameterInput) (t : string) :
  findSub l1 t = None -> findSub (l1 ++ l2) t = findSub l2 t.
Proof.
  unfold findSub. induction l1 as [| s l1 IH]; cbn; [reflexivity |].
  destruct (String.eqb (name s) t); [discriminate | exact IH].
Qed.

(** An accepted node fits every declared attribute. *)
Lemma parseNode_param_fits (spec : ParameterInput) (p : Param) (t : string)
    (attrib : list (string * string)) (text : string) (children : list xml) :
  parseNode spec (Element t attrib text children) = true ->
  p ∈ parameters spec ->
  paramFits attrib p = true.
Proof.
  intros Hacc Hin. destruct (paramFits attrib p) eqn:Hp; [reflexivity |].
  rewrite parseNode_unfold in Hacc.
  rewrite (forallb_false_at (paramFits attrib) (parameters spec) p Hin Hp) in Hacc.
  now rewrite !andb_false_r in Hacc.
Qed.

(** Children that all bear one declared name and are accepted by its
    descriptor pass the check of the children. *)
Lemma children_accepted (subs : list ParameterInput) (sub : ParameterInput)
    (cs : list xml) :
  findSub subs (name sub) = Some sub ->
  Forall (fun c => tag c = name sub /\ parseNode sub c = true) cs ->
  forallb (fun c =>
             match findSub subs (tag c) with
             | Some sub' => parseNode sub' c
             | None => false
             end) cs = true.
Proof.
  intros Hfind Hall. induction Hall as [| c cs [Htag Hacc] _ IH]; cbn; [reflexivity |].
  now rewrite Htag, Hfind, Hacc, IH.
Qed.

(** ** The input specification *)

(** What [getInputSpecification] adds to the base specification: four
    sub-nodes after the ones the base declares. *)
Lemma specification_subs (base : ParameterInput) :
  exists seed multicycle clusterEvalMode maxCycles : ParameterInput,
    subs (getInputSpecification base) =
      (subs base ++ [seed; multicycle; clusterEvalMode; maxCycles])%list
    /\ name seed = "seed"
    /\ name multicycle = "Multicycle"
    /\ name clusterEvalMode = "clusterEvalMode"
    /\ name maxCycles = "maxCycles".
Proof.
  destruct base as [n c d df ps ss].
  do 4 eexists. split.
  { cbn. rewrite <- !app_assoc. reflexivity. }
  repeat split.
Qed.

(** C7: the specification declares an optional node [Multicycle] whose
    sub-nodes are [cycles], of integer content and without default, and
    [growth], which may occur any number of times; a [Multicycle]
    without [cycles] is rejected, alone and inside a configuration. *)
Theorem multicycle_node_declared (base : ParameterInput) :
  exists multicycle cycles growth : ParameterInput,
    multicycle ∈ subs (getInputSpecification base)
    /\ name multicycle = "Multicycle"
    /\ default multicycle = VNone
    /\ (forall children, subPresent children multicycle = true)
    /\ subs multicycle = [cycles; growth]
    /\ name cycles = "cycles"
    /\ contentType cycles = Some IntegerType
    /\ default cycles = VStr "no-default"
    /\ name growth = "growth"
    /\ default growth = VNone
    /\ parseNode growth
         (Element "growth" [("targets", "T1"); ("mode", "linear")] "50" []) = true
    /\ (forall attrib text children,
          existsb (fun c => String.eqb (tag c) "cycles") children = false ->
          parseNode multicycle (Element "Multicycle" attrib text children) = false)
    /\ (forall t attrib text children mattrib mtext mchildren,
          findSub (subs base) "Multicycle" = None ->
          Element "Multicycle" mattrib mtext mchildren ∈ children ->
          existsb (fun c => String.eqb (tag c) "cycles") mchildren = false ->
          parseNode (getInputSpecification base) (Element t attrib text children) = false)
    /\ (forall text n gs,
          isInteger n = true ->
          Forall (fun g => tag g = "growth" /\ parseNode growth g = true) gs ->
          parseNode multicycle
            (Element "Multicycle" [] text (Element "cycles" [] n [] :: gs)) = true).
Proof.
  destruct base as [bn bc bd bdf bps bss].
  eexists _, _, _.
  split.
  { cbn. rewrite <- !app_assoc. apply elem_of_app. right.
    apply list_elem_of_further, list_elem_of_here. }
  do 10 (split; [reflexivity |]).
  split; [| split].
  - intros attrib text children Habs.
    eapply parseNode_missing_sub; [apply list_elem_of_here | reflexivity | exact Habs].
  - intros t attrib text children mattrib mtext mchildren Hbase Hin Habs.
    eapply parseNode_child_rejected; [exact Hin | |].
    + cbn [tag]. cbn [subs] in Hbase. unfold getInputSpecification.
      cbn [subs setDescription addSub]. rewrite <- !app_assoc.
      rewrite (findSub_app_None _ _ _ Hbase). reflexivity.
    + eapply parseNode_missing_sub; [apply list_elem_of_here | reflexivity | exact Habs].
  - intros text n gs Hn Hgs.
    match goal with
    | |- parseNode ?m _ = true =>
        pose proof (children_accepted (subs m) (nth 1 (subs m) m) gs eq_refl Hgs) as Hkids
    end.
    rewrite parseNode_unfold. cbn [forallb]. rewrite Hkids.
    cbn. rewrite Hn. reflexivity.
Qed.

(** The statement above on the specification built over a base that
    declares nothing, with zero and with two [growth] nodes. *)
Lemma multicycle_node_declared_witness :
  exists multicycle : ParameterInput,
    multicycle ∈ subs (getInputSpecification (parameterInputFactory "ROM" StringType "" VNone))
    /\ parseNode multicycle (Element "Multicycle" [] "" []) = false
    /\ parseNode (getInputSpecification (parameterInputFactory "ROM" StringType "" VNone))
         (Element "ROM" [] "" [Element "Multicycle" [] "" [Element "growth" [] "50" []]]) = false
    /\ parseNode multicycle (Element "Multicycle" [] "" [Element "cycles" [] "5" []]) = true
    /\ parseNode multicycle
         (Element "Multicycle" [] ""
            [Element "cycles" [] "5" [];
             Element "growth" [("targets", "T1"); ("mode", "linear")] "50" [];
             Element "growth" [("targets", "T1"); ("mode", "linear")] "50" []]) = true.
Proof.
  destruct (multicycle_node_declared (parameterInputFactory "ROM" StringType "" VNone))
    as (m & c & g & Hin & _ & _ & _ & _ & _ & _ & _ & _ & _ & Hg & Hrej & Htop & Hacc).
  exists m. split; [exact Hin |].
  split; [apply Hrej; reflexivity |].
  split; [eapply Htop; [reflexivity | apply list_elem_of_here | reflexivity] |].
  split; [apply Hacc; [reflexivity | constructor] |].
  apply Hacc; [reflexivity | repeat constructor; exact Hg].
Defined.

(** C8: the [growth] node under [Multicycle] has float content, a
    required attribute [targets] that is a list of strings, optional
    integer attributes [start_index] and [end_index], and a required
    attribute [mode] that admits [exponential] and [linear] only; a
    growth node with targets T1, mode linear and content 50 is accepted,
    one without [mode] is rejected. *)
Theorem growth_node_declared (base : ParameterInput) :
  exists multicycle growth : ParameterInput,
    multicycle ∈ subs (getInputSpecification base)
    /\ name multicycle = "Multicycle"
    /\ growth ∈ subs multicycle
    /\ name growth = "growth"
    /\ contentType growth = Some FloatType
    /\ parameters growth =
         [ mkParam "targets" StringListType true Descr.targets;
           mkParam "start_index" IntegerType false "";
           mkParam "end_index" IntegerType false "";
           mkParam "mode" (EnumType "growth" "armaGrowthType" ["exponential"; "linear"])
             true Descr.mode ]
    /\ stringList "T1" = ["T1"]
    /\ parseNode growth
         (Element "growth" [("targets", "T1"); ("mode", "linear")] "50" []) = true
    /\ parseNode multicycle
         (Element "Multicycle" [] ""
            [Element "cycles" [] "5" [];
             Element "growth" [("targets", "T1"); ("mode", "linear")] "50" []]) = true
    /\ parseNode growth (Element "growth" [("targets", "T1")] "50" []) = false
    /\ (forall attrib text children,
          getAttrib attrib "mode" = None ->
          parseNode growth (Element "growth" attrib text children) = false)
    /\ (forall attrib text children,
          getAttrib attrib "targets" = None ->
          parseNode growth (Element "growth" attrib text children) = false)
    /\ (forall attrib text children mode,
          getAttrib attrib "mode" = Some mode ->
          parseNode growth (Element "growth" attrib text children) = true ->
          mode = "exponential" \/ mode = "linear")
    /\ (forall attrib children,
          parseNode growth (Element "growth" attrib "fifty" children) = false).
Proof.
  destruct base as [bn bc bd bdf bps bss].
  eexists _, _.
  split.
  { cbn. rewrite <- !app_assoc. apply elem_of_app. right.
    apply list_elem_of_further, list_elem_of_here. }
  split; [reflexivity |].
  split; [apply list_elem_of_further, list_elem_of_here |].
  do 7 (split; [reflexivity |]).
  split; [| split; [| split]].
  - intros attrib text children Habs.
    eapply parseNode_missing_param;
      [do 3 apply list_elem_of_further; apply list_elem_of_here | reflexivity | exact Habs].
  - intros attrib text children Habs.
    eapply parseNode_missing_param;
      [apply list_elem_of_here | reflexivity | exact Habs].
  - intros attrib text children mode Hmode Hacc.
    eapply parseNode_param_fits in Hacc;
      [| do 3 apply list_elem_of_further; apply list_elem_of_here].
    unfold paramFits in Hacc. cbn [paramName paramType] in Hacc.
    rewrite Hmode in Hacc. cbn [fits existsb] in Hacc.
    apply orb_true_iff in Hacc. destruct Hacc as [Hexp | Hacc].
    { left. now apply String.eqb_eq. }
    apply orb_true_iff in Hacc. destruct Hacc as [Hlin | Hnone].
    { right. now apply String.eqb_eq. }
    discriminate Hnone.
  - intros attrib children. rewrite parseNode_unfold.
    replace (contentFits _ "fifty") with false by reflexivity.
    now rewrite andb_false_r.
Qed.

(** The statement above on the specification built over a base that
    declares nothing: a node without [mode], a node without [targets],
    and the mode of the accepted node. *)
Lemma growth_node_declared_witness :
  exists growth : ParameterInput,
    name growth = "growth"
    /\ parseNode growth
         (Element "growth" [("targets", "T1"); ("start_index", "2")] "50" []) = false
    /\ parseNode growth (Element "growth" [("mode", "linear")] "50" []) = false
    /\ ("linear" = "exponential" \/ "linear" = "linear").
Proof.
  destruct (growth_node_declared (parameterInputFactory "ROM" StringType "" VNone))
    as (m & g & _ & _ & _ & Hname & _ & _ & _ & Hacc & _ & _ & Hmode & Htargets & Henum & _).
  exists g. split; [exact Hname |].
  split; [apply Hmode; reflexivity |].
  split; [apply Htargets; reflexivity |].
  apply (Henum [("targets", "T1"); ("mode", "linear")] "50" [] "linear");
    [reflexivity | exact Hacc].
Defined.

(** C9: the specification declares an optional node [clusterEvalMode]
    whose content is one of [clustered], [truncated] and [full]
    ("truncated" is accepted, "invalid-mode" is rejected), and an
    optional node [maxCycles] of integer content whose default is
    [None]. *)
Theorem clusterEvalMode_maxCycles_declared (base : ParameterInput) :
  exists clusterEvalMode maxCycles : ParameterInput,
    clusterEvalMode ∈ subs (getInputSpecification base)
    /\ maxCycles ∈ subs (getInputSpecification base)
    /\ name clusterEvalMode = "clusterEvalMode"
    /\ contentType clusterEvalMode =
         Some (EnumType "clusterEvalModeEnum" "clusterEvalModeType"
                 ["clustered"; "truncated"; "full"])
    /\ default clusterEvalMode = VNone
    /\ (forall children, subPresent children clusterEvalMode = true)
    /\ parseNode clusterEvalMode (Element "clusterEvalMode" [] "truncated" []) = true
    /\ parseNode clusterEvalMode (Element "clusterEvalMode" [] "invalid-mode" []) = false
    /\ (forall text,
          parseNode clusterEvalMode (Element "clusterEvalMode" [] text []) =
          existsb (String.eqb text) ["clustered"; "truncated"; "full"])
    /\ name maxCycles = "maxCycles"
    /\ contentType maxCycles = Some IntegerType
    /\ default maxCycles = VNone
    /\ (forall children, subPresent children maxCycles = true)
    /\ parseNode maxCycles (Element "maxCycles" [] "12" []) = true.
Proof.
  destruct base as [bn bc bd bdf bps bss].
  eexists _, _.
  split.
  { cbn. rewrite <- !app_assoc. apply elem_of_app. right.
    do 2 apply list_elem_of_further. apply list_elem_of_here. }
  split.
  { cbn. rewrite <- !app_assoc. apply elem_of_app. right.
    do 3 apply list_elem_of_further. apply list_elem_of_here. }
  do 6 (split; [reflexivity |]).
  split.
  { intros text. rewrite parseNode_unfold. cbn.
    now rewrite !andb_true_r. }
  repeat split.
Qed.


(** ** The constructor and the base class *)

(** X1: a fresh instance has the attributes the base-class constructor
    set and the five [__init__] assigns, and no other. *)
Theorem fresh_attributes (superInit : obj -> obj) :
  dom (fresh superInit) =
  list_to_set ["printTag"; "_dynamicHandling"; "initOptionDict"; "features"; "target"]
    ∪ dom (superInit ∅).
Proof.
  unfold fresh, new. rewrite init_store. cbn [snd].
  rewrite !dom_insert_L. cbn [list_to_set]. set_solver.
Qed.

(** X2: [__init__] touches its five attributes only: any other
    attribute of a fresh instance is as the base-class constructor left
    it, set or unset. *)
Theorem init_keeps_base_attributes (superInit : obj -> obj) (attribute : string) :
  attribute ∉ ["printTag"; "_dynamicHandling"; "initOptionDict"; "features"; "target"] ->
  fresh superInit !! attribute = superInit ∅ !! attribute.
Proof.
  intros Hout. unfold fresh, new. rewrite init_store. cbn [snd].
  rewrite !lookup_insert_ne; [reflexivity | ..];
    intros <-; apply Hout;
    repeat first [apply list_elem_of_here | apply list_elem_of_further].
Qed.

(** The statement above for a base-class constructor that sets
    [verbosity] and an empty [features]: [verbosity] is kept. *)
Lemma init_keeps_base_attributes_witness :
  fresh (fun self => <["verbosity" := VStr "all"]> (<["features" := VList []]> self))
    !! "verbosity" = Some (VStr "all").
Proof.
  rewrite (init_keeps_base_attributes
             (fun self => <["verbosity" := VStr "all"]> (<["features" := VList []]> self))
             "verbosity").
  - reflexivity.
  - intros Hin. do 5 (apply elem_of_cons in Hin as [Heq | Hin]; [discriminate Heq |]).
    apply elem_of_nil in Hin. exact Hin.
Defined.

(** ** Sequences of calls *)

Lemma invoke_outcome (c : call) (self : obj) :
  invoke c self =
  (if refused c
   then Raise (mkException RuntimeError notLoaded (self !! "printTag"))
   else Return (answer c),
   self).
Proof. destruct c; reflexivity. Qed.

Lemma script_state (cs : list call) (self : obj) :
  snd (script cs self) = self.
Proof.
  induction cs as [| c cs IH]; [reflexivity |].
  cbn [script]. unfold mbind, M_bind. rewrite invoke_outcome.
  destruct (refused c); [reflexivity |].
  destruct (script cs self) as [[vs | e] self'] eqn:Hrun; cbn [snd] in IH; subst self';
    reflexivity.
Qed.

Lemma attempts_state (cs : list call) (self : obj) :
  snd (attempts cs self) = self.
Proof.
  induction cs as [| c cs IH]; [reflexivity |].
  cbn [attempts]. rewrite invoke_outcome.
  destruct (attempts cs self) as [rs self'] eqn:Hrun. exact IH.
Qed.

(** X3: no sequence of calls of the methods of the placeholder changes
    the instance, whether the caller stops at the first error or
    catches each one: nothing here trains, resets or restores. *)
Theorem calls_keep_instance (cs : list call) (self : obj) :
  snd (script cs self) = self /\ snd (attempts cs self) = self.
Proof. split; [apply script_state | apply attempts_state]. Qed.

(** X4: a sequence of calls made without catching errors comes back
    with one answer per call exactly when it holds no train and no
    evaluate; otherwise it ends in the not-loaded [RuntimeError]. *)
Theorem script_outcome (cs : list call) (self : obj) :
  fst (script cs self) =
  if existsb refused cs
  then Raise (mkException RuntimeError
                "PickledROM has not been loaded from file yet!  An IO step is required to perform this action."
                (self !! "printTag"))
  else Return (map answer cs).
Proof.
  induction cs as [| c cs IH]; [reflexivity |].
  pose proof (script_state cs self) as Hkeep.
  cbn [script existsb map]. unfold mbind, M_bind. rewrite invoke_outcome.
  destruct (refused c); [reflexivity |]. cbn [orb].
  destruct (script cs self) as [[vs | e] self'] eqn:Hrun;
    cbn [fst snd] in IH, Hkeep; subst self';
    destruct (existsb refused cs); unfold mret, M_ret; cbn [fst]; congruence.
Qed.

(** X5: when the caller catches every error, each train and each
    evaluate of the sequence fails with the not-loaded [RuntimeError],
    every other call returns its answer, however many calls came
    before. *)
Theorem attempts_outcome (cs : list call) (self : obj) :
  fst (attempts cs self) =
  map (fun c =>
         if refused c
         then Raise (mkException RuntimeError
                       "PickledROM has not been loaded from file yet!  An IO step is required to perform this action."
                       (self !! "printTag"))
         else Return (answer c)) cs.
Proof.
  induction cs as [| c cs IH]; [reflexivity |].
  pose proof (attempts_state cs self) as Hkeep.
  cbn [attempts map]. rewrite invoke_outcome.
  destruct (attempts cs self) as [rs self'] eqn:Hrun.
  cbn [fst snd] in IH, Hkeep |- *. now rewrite IH.
Qed.

(** ** The specification and the base specification *)

Lemma specification_added (base : ParameterInput) :
  subs (getInputSpecification base) = (subs base ++ added)%list.
Proof.
  destruct base as [n c d df ps ss]. unfold added. cbn. now rewrite <- !app_assoc.
Qed.

Lemma specification_fields (base : ParameterInput) :
  name (getInputSpecification base) = name base
  /\ contentType (getInputSpecification base) = contentType base
  /\ default (getInputSpecification base) = default base
  /\ parameters (getInputSpecification base) = parameters base.
Proof. destruct base as [n c d df ps ss]. repeat split. Qed.

(** X6: [getInputSpecification] keeps the name, the content type, the
    default, the attributes and the sub-nodes of the base specification,
    replaces its description, and declares after the base's sub-nodes
    four more that do not depend on the base: [seed], [Multicycle],
    [clusterEvalMode] and [maxCycles], in this order, each with default
    [None] and without attributes. *)
Theorem specification_extends_base (base : ParameterInput) :
  name (getInputSpecification base) = name base
  /\ contentType (getInputSpecification base) = contentType base
  /\ default (getInputSpecification base) = default base
  /\ parameters (getInputSpecification base) = parameters base
  /\ description (getInputSpecification base) = Descr.description
  /\ subs (getInputSpecification base) = (subs base ++ added)%list
  /\ map name added = ["seed"; "Multicycle"; "clusterEvalMode"; "maxCycles"]
  /\ map default added = [VNone; VNone; VNone; VNone]
  /\ map parameters added = [[]; []; []; []]
  /\ length (subs (getInputSpecification base)) = length (subs base) + 4.
Proof.
  destruct (specification_fields base) as (Hn & Hc & Hd & Hp).
  repeat split; try assumption.
  - now destruct base.
  - apply specification_added.
  - rewrite specification_added, length_app. reflexivity.
Qed.

Lemma findSub_app (l1 l2 : list ParameterInput) (t : string) :
  findSub (l1 ++ l2) t =
  match findSub l1 t with
  | Some sub => Some sub
  | None => findSub l2 t
  end.
Proof.
  unfold findSub. induction l1 as [| s l1 IH]; cbn; [reflexivity |].
  destruct (String.eqb (name s) t); [reflexivity | exact IH].
Qed.

Lemma forallb_impl {A : Type} (f g : A -> bool) (l : list A) :
  (forall x, x ∈ l -> f x = true -> g x = true) ->
  forallb f l = true -> forallb g l = true.
Proof.
  induction l as [| x l IH]; cbn; [reflexivity |].
  intros Himp Hf. apply andb_true_iff in Hf as [Hx Hl].
  rewrite (Himp x (list_elem_of_here x l) Hx). cbn.
  apply IH; [| exact Hl]. intros y Hy. apply Himp. now apply list_elem_of_further.
Qed.

Lemma forallb_ext_in {A : Type} (f g : A -> bool) (l : list A) :
  (forall x, x ∈ l -> f x = g x) -> forallb f l = forallb g l.
Proof.
  induction l as [| x l IH]; cbn; [reflexivity |].
  intros Heq. rewrite (Heq x (list_elem_of_here x l)). f_equal.
  apply IH. intros y Hy. apply Heq. now apply list_elem_of_further.
Qed.

(** None of the declared sub-nodes is required of the configuration. *)
Lemma added_not_required (children : list xml) :
  forallb (subPresent children) added = true.
Proof. reflexivity. Qed.

Lemma findSub_undeclared (l : list ParameterInput) (t : string) :
  t ∉ map name l -> findSub l t = None.
Proof.
  unfold findSub. induction l as [| s l IH]; cbn [map find]; [reflexivity |].
  intros Hout. destruct (String.eqb_spec (name s) t) as [Heq | _].
  - exfalso. apply Hout. rewrite Heq. apply list_elem_of_here.
  - apply IH. intros Hin. apply Hout. now apply list_elem_of_further.
Qed.

Lemma findSub_added_other (t : string) :
  t ∉ ["seed"; "Multicycle"; "clusterEvalMode"; "maxCycles"] ->
  findSub added t = None.
Proof. intros Hout. apply findSub_undeclared. exact Hout. Qed.

(** X7: the sub-nodes added are all optional: a configuration the base
    specification accepts is accepted by the specification of
    pickledROM. *)
Theorem base_configuration_accepted (base : ParameterInput) (node : xml) :
  parseNode base node = true ->
  parseNode (getInputSpecification base) node = true.
Proof.
  destruct node as [t attrib text children].
  destruct (specification_fields base) as (Hn & Hc & _ & Hp).
  rewrite !parseNode_unfold, Hn, Hc, Hp, specification_added.
  intros Hacc. repeat (apply andb_true_iff in Hacc as [Hacc ?]).
  repeat (apply andb_true_iff; split); try assumption.
  - rewrite forallb_app, added_not_required. now rewrite andb_true_r.
  - eapply forallb_impl; [| eassumption].
    intros c _. cbn beta. rewrite findSub_app.
    now destruct (findSub (subs base) (tag c)).
Qed.

(** The statement above on a base that declares one attribute and one
    sub-node. *)
Lemma base_configuration_accepted_witness :
  parseNode
    (getInputSpecification
       (addSub
          (addParam (parameterInputFactory "ROM" StringType "" VNone) "name" StringType true "")
          (parameterInputFactory "Features" StringListType "" VNone)))
    (Element "ROM" [("name", "rom")] "" [Element "Features" [] "x,y" []]) = true.
Proof.
  apply (base_configuration_accepted
           (addSub
              (addParam (parameterInputFactory "ROM" StringType "" VNone) "name" StringType true "")
              (parameterInputFactory "Features" StringListType "" VNone))
           (Element "ROM" [("name", "rom")] "" [Element "Features" [] "x,y" []])).
  reflexivity.
Defined.

(** X8: on a configuration none of whose children is a [seed], a
    [Multicycle], a [clusterEvalMode] or a [maxCycles], the
    specification of pickledROM gives the verdict of the base
    specification: it adds these four nodes and nothing else. *)
Theorem verdict_without_added_nodes (base : ParameterInput) (t : string)
    (attrib : list (string * string)) (text : string) (children : list xml) :
  Forall (fun c => tag c ∉ ["seed"; "Multicycle"; "clusterEvalMode"; "maxCycles"]) children ->
  parseNode (getInputSpecification base) (Element t attrib text children) =
  parseNode base (Element t attrib text children).
Proof.
  intros Hout.
  destruct (specification_fields base) as (Hn & Hc & _ & Hp).
  rewrite !parseNode_unfold, Hn, Hc, Hp, specification_added.
  rewrite forallb_app, added_not_required, andb_true_r. f_equal.
  apply forallb_ext_in. intros c Hc'.
  rewrite findSub_app.
  destruct (findSub (subs base) (tag c)); [reflexivity |].
  rewrite findSub_added_other; [reflexivity |].
  rewrite Forall_forall in Hout. now apply Hout.
Qed.

(** The statement above on a base that declares nothing and a
    configuration with an undeclared child: rejected by both. *)
Lemma verdict_without_added_nodes_witness :
  parseNode (getInputSpecification (parameterInputFactory "ROM" StringType "" VNone))
    (Element "ROM" [] "" [Element "Features" [] "x,y" []]) = false.
Proof.
  rewrite (verdict_without_added_nodes (parameterInputFactory "ROM" StringType "" VNone)
             "ROM" [] "" [Element "Features" [] "x,y" []]).
  - reflexivity.
  - constructor; [| constructor].
    intros Hin. do 4 (apply elem_of_cons in Hin as [Heq | Hin]; [discriminate Heq |]).
    apply elem_of_nil in Hin. exact Hin.
Defined.

Lemma subPresent_more (children extra : list xml) (sub : ParameterInput) :
  subPresent children sub = true -> subPresent (children ++ extra) sub = true.
Proof.
  unfold subPresent. destruct (noDefault (default sub)); [| reflexivity].
  cbn [implb]. rewrite existsb_app. now intros ->.
Qed.

(** X9: a configuration the base specification accepts stays accepted
    when nodes of the four added kinds are put after its children, each
    one accepted by its own descriptor, as long as the base declares no
    node of their names. *)
Theorem configuration_with_added_nodes (base : ParameterInput) (t : string)
    (attrib : list (string * string)) (text : string) (children extra : list xml) :
  parseNode base (Element t attrib text children) = true ->
  Forall (fun e =>
            findSub (subs base) (tag e) = None
            /\ exists sub, findSub added (tag e) = Some sub /\ parseNode sub e = true)
         extra ->
  parseNode (getInputSpecification base) (Element t attrib text (children ++ extra)) = true.
Proof.
  intros Hacc Hextra.
  destruct (specification_fields base) as (Hn & Hc & _ & Hp).
  rewrite parseNode_unfold in Hacc.
  rewrite parseNode_unfold, Hn, Hc, Hp, specification_added.
  repeat (apply andb_true_iff in Hacc as [Hacc ?]).
  repeat (apply andb_true_iff; split); try assumption.
  - rewrite forallb_app, added_not_required, andb_true_r.
    eapply forallb_impl; [| eassumption].
    intros sub _. apply subPresent_more.
  - rewrite forallb_app. apply andb_true_iff. split.
    + eapply forallb_impl; [| eassumption].
      intros c _. cbn beta. rewrite findSub_app.
      now destruct (findSub (subs base) (tag c)).
    + clear -Hextra. induction Hextra as [| e extra (Hbase & sub & Hsub & He) _ IH];
        [reflexivity |].
      cbn [forallb]. now rewrite findSub_app, Hbase, Hsub, He, IH.
Qed.

(** The statement above on a base that declares one attribute, with
    one node of each added kind. *)
Lemma configuration_with_added_nodes_witness :
  parseNode
    (getInputSpecification
       (addParam (parameterInputFactory "ROM" StringType "" VNone) "name" StringType true ""))
    (Element "ROM" [("name", "rom")] ""
       [ Element "seed" [] "42" [];
         Element "Multicycle" [] ""
           [ Element "cycles" [] "5" [];
             Element "growth" [("targets", "T1"); ("mode", "linear")] "50" [] ];
         Element "clusterEvalMode" [] "truncated" [];
         Element "maxCycles" [] "3" [] ]) = true.
Proof.
  apply (configuration_with_added_nodes
           (addParam (parameterInputFactory "ROM" StringType "" VNone) "name" StringType true "")
           "ROM" [("name", "rom")] "" []).
  - reflexivity.
  - repeat constructor; eexists; split; reflexivity.
Defined.









